(** * ChatGPT3TelegramBot: a shallow embedding of [telegram_bot.py]

    The bot is a relay between a messaging transport (python-telegram-bot)
    and a conversational backend (revChatGPT).  Both are external
    collaborators: every call the handlers make on them is recorded, in
    program order, in a trace of effects, and the backend is an interface
    whose implementation may change its own state and may raise.

    A handler is run on an update that carries a message from a user, the
    shape the framework hands to command and text handlers.  A call on the
    transport is recorded and returns; a call on the backend is recorded and
    then returns or raises, as the backend decides.  [logging.info] is an
    effect like the others.

    Python strings are modelled as [string], a character standing for a
    code point below 256; on these strings [split], [==], [+], [str] and
    [repr] are the ones of Python. *)

From Stdlib Require Import ZArith Ascii String DecimalString DecimalPos DecimalZ.
From stdpp Require Import base strings list gmap.

Local Open Scope Z_scope.
Local Open Scope string_scope.

(** ** Python values used by the bot *)

Module Py.

(** The exceptions that flow through the handlers.  [except Exception]
    catches every instance of [Exception]; [KeyboardInterrupt],
    [SystemExit] and [GeneratorExit] derive from [BaseException] only. *)
Inductive exn : Type :=
| KeyError (key : string)
| RaisedException (msg : string)
| RaisedBaseException (msg : string).

Definition is_Exception (e : exn) : bool :=
  match e with
  | KeyError _ | RaisedException _ => true
  | RaisedBaseException _ => false
  end.

(** [sub in s] for two strings. *)
Definition in_str (sub s : string) : bool :=
  match String.index 0 sub s with
  | Some _ => true
  | None => false
  end.

Definition squote : ascii := "039".
Definition dquote : ascii := "034".
Definition backslash : ascii := "092".

(** [c.isprintable()] for a code point below 256: the controls, the
    no-break space (160) and the soft hyphen (173) are not printable. *)
Definition isprintable (c : ascii) : bool :=
  let n := N_of_ascii c in
  ((32 <=? n) && (n <=? 126) || (161 <=? n) && (n <=? 172) || (174 <=? n))%N.

Definition hex_digit (n : N) : ascii :=
  match String.get (N.to_nat n) "0123456789abcdef" with
  | Some c => c
  | None => "0"
  end.

(** The escape [\xhh] of a character. *)
Definition escape_x (c : ascii) : string :=
  let n := N_of_ascii c in
  String backslash
    (String "x" (String (hex_digit (n / 16)) (String (hex_digit (n mod 16)) ""))).

(** One character of [repr(s)], inside the quotes [quote]. *)
Definition repr_char (quote c : ascii) : string :=
  if Ascii.eqb c quote || Ascii.eqb c backslash then
    String backslash (String c "")
  else if Ascii.eqb c "009" then String backslash "t"
  else if Ascii.eqb c "010" then String backslash "n"
  else if Ascii.eqb c "013" then String backslash "r"
  else if isprintable c then String c ""
  else escape_x c.

Fixpoint repr_body (quote : ascii) (s : string) : string :=
  match s with
  | EmptyString => EmptyString
  | String c r => repr_char quote c ++ repr_body quote r
  end.

(** [repr(s)] for a string: in single quotes, unless [s] has a single
    quote and no double quote; the quote in use, the backslash and what is
    not printable are escaped. *)
Definition repr (s : string) : string :=
  let quote :=
    if in_str (String squote "") s && negb (in_str (String dquote "") s)
    then dquote else squote in
  String quote (repr_body quote s ++ String quote "").

(** [str(e)]: a [KeyError] prints the repr of its key; an exception raised
    by a collaborator comes with what [str] gives for it. *)
Definition str_exn (e : exn) : string :=
  match e with
  | KeyError k => repr k
  | RaisedException m | RaisedBaseException m => m
  end.

(** [str(n)] for an [int]. *)
Definition str_int (n : Z) : string :=
  NilZero.string_of_int (Z.to_int n).

(** [s.split(sep)] for a one-character separator and no [maxsplit]:
    the fields between the separators, empty fields included, so the
    result has one more element than [s] has separators. *)
Fixpoint split (sep : ascii) (s : string) : list string :=
  match s with
  | EmptyString => [EmptyString]
  | String c r =>
      if Ascii.eqb c sep then EmptyString :: split sep r
      else match split sep r with
           | f :: fs => String c f :: fs
           | [] => [String c EmptyString]
           end
  end.

(** [x in l] for a list of strings: some element is [==] to [x]. *)
Definition contains (x : string) (l : list string) : bool :=
  existsb (String.eqb x) l.

(** The outcome of evaluating an expression or running a statement. *)
Inductive result (A : Type) : Type :=
| Ok (a : A)
| Raise (e : exn).
Global Arguments Ok {A} a.
Global Arguments Raise {A} e.

(** [d[k]] on a dict with string keys. *)
Definition getitem {V} (d : gmap string V) (k : string) : result V :=
  match d !! k with
  | Some v => Ok v
  | None => Raise (KeyError k)
  end.

End Py.

Import Py.

(** ** The transport's data: what a handler reads from an [Update] *)

Module Telegram.

(** [from_user.id] is an [int] on the wire; the handler only ever applies
    [str] to it, so any value with a [str] is accepted, as in Python. *)
Inductive value : Type :=
| Int (n : Z)
| Str (s : string).

Definition str (v : value) : string :=
  match v with
  | Int n => str_int n
  | Str s => s
  end.

Record User := { id : value; name : string }.
Record Chat := { chat_id : Z; chat_type : string }.
Record Message := {
  from_user : User;
  text : string;
  message_id : Z;
  chat : Chat
}.
Record Update := { message : Message }.

(** [update.effective_chat] of an update that carries a message. *)
Definition effective_chat (update : Update) : Chat := chat (message update).
Global Arguments effective_chat : simpl never.

(** [telegram.constants] *)
Definition CHATACTION_TYPING : string := "typing".
Definition PARSEMODE_MARKDOWN : string := "Markdown".
Definition CHAT_PRIVATE : string := "private".

(** The keyword arguments of one [context.bot.send_message(...)] call;
    [None] is an argument the call site leaves out. *)
Record SendMessage := {
  sm_chat_id : Z;
  sm_text : string;
  sm_reply_to_message_id : option Z;
  sm_parse_mode : option string;
  sm_disable_web_page_preview : option bool
}.

(** What [to.reply_text(body, disable_web_page_preview=p)] sends in
    python-telegram-bot 13, for a bot built without [Defaults] (as [run]
    builds it) and a call that passes no [quote]: a [send_message] to the
    chat of [to], with no parse mode, quoting [to] unless the chat is a
    private one. *)
Definition reply_text_call (to : Message) (body : string)
    (p : option bool) : SendMessage :=
  {| sm_chat_id := chat_id (chat to);
     sm_text := body;
     sm_reply_to_message_id :=
       if String.eqb (chat_type (chat to)) CHAT_PRIVATE then None
       else Some (message_id to);
     sm_parse_mode := None;
     sm_disable_web_page_preview := p |}.

End Telegram.

(** ** Effects: the calls a handler makes on its collaborators *)

Inductive effect : Type :=
| E_logging_info (msg : string)
| E_send_message (args : Telegram.SendMessage)
| E_send_chat_action (chat_id : Z) (action : string)
| E_reply_text (to : Telegram.Message) (text : string)
               (disable_web_page_preview : option bool)
| E_get_chat_response (message : string)
| E_reset_chat.

(** What reaches the chat: the calls on the transport. *)
Definition is_transport (e : effect) : bool :=
  match e with
  | E_send_message _ | E_send_chat_action _ _ | E_reply_text _ _ _ => true
  | _ => false
  end.

Definition is_backend_call (e : effect) : bool :=
  match e with
  | E_get_chat_response _ | E_reset_chat => true
  | _ => false
  end.

Definition is_typing (e : effect) : bool :=
  match e with
  | E_send_chat_action _ a => String.eqb a Telegram.CHATACTION_TYPING
  | _ => false
  end.

Definition is_reset_call (e : effect) : bool :=
  match e with E_reset_chat => true | _ => false end.

(** The [send_message] calls of a trace, in order. *)
Definition sent_messages (t : list effect) : list Telegram.SendMessage :=
  omap (fun e => match e with E_send_message a => Some a | _ => None end) t.

(** The conversational backend ([revChatGPT.Chatbot]): an object with a
    state of its own whose two methods may raise.  A chat response is a
    dict. *)
Class ChatGPT3Bot (B : Type) : Type := {
  get_chat_response : string -> B -> B * result (gmap string string);
  reset_chat : B -> B * result unit
}.

(** ** The handlers *)

Section Bot.

Context {B : Type} `{ChatGPT3Bot B}.

(** The world a handler runs in: the backend object and the calls made
    so far, oldest first. *)
Record World : Type := { gpt3_bot : B; trace : list effect }.

Definition M (A : Type) : Type := World -> World * result A.

Definition ret {A} (a : A) : M A := fun w => (w, Ok a).

Definition bind {A C} (m : M A) (k : A -> M C) : M C :=
  fun w => match m w with
           | (w', Ok a) => k a w'
           | (w', Raise e) => (w', Raise e)
           end.

Definition lift {A} (r : result A) : M A := fun w => (w, r).

Definition emit (e : effect) : M unit :=
  fun w => ({| gpt3_bot := gpt3_bot w; trace := trace w ++ [e] |}, Ok tt).

(** [try: body / except Exception as e: handler e] *)
Definition try_except_Exception {A} (body : M A) (handler : exn -> M A) : M A :=
  fun w => match body w with
           | (w', Ok a) => (w', Ok a)
           | (w', Raise e) =>
               if is_Exception e then handler e w' else (w', Raise e)
           end.

(** A method call on [self.gpt3_bot]: the call is made, the backend
    moves to its next state, and the call returns or raises. *)
Definition call_backend {A} (e : effect) (method : B -> B * result A) : M A :=
  fun w => let '(b', r) := method (gpt3_bot w) in
           ({| gpt3_bot := b'; trace := trace w ++ [e] |}, r).

End Bot.

Arguments World B : clear implicits.
Arguments M B A : clear implicits.

Declare Scope bot_scope.
Delimit Scope bot_scope with bot.
Notation "x <- m ;; k" := (bind m (fun x => k))
  (at level 100, m at next level, right associativity) : bot_scope.
Notation "m ;; k" := (bind m (fun _ => k))
  (at level 100, right associativity) : bot_scope.

Record ChatGPT3TelegramBot : Type := {
  config : gmap string string;
  disallowed_message : string
}.

(** [__init__]; the backend object lives in the [World]. *)
Definition init (config : gmap string string) : ChatGPT3TelegramBot :=
  {| config := config;
     disallowed_message :=
       "Sorry, you are not allowed to use this bot. You can check out the source code at "
       ++ "https://github.com/n3d1117/chatgpt-telegram-bot" |}.

Definition apology : string :=
  "I'm having some trouble talking to you, please try again later.".

Definition help_text : string :=
  "/start - Start the bot" ++ String "010" (
  "/reset - Reset conversation" ++ String "010" (
  "/help - Help menu" ++ String "010" (String "010"
  "Open source at https://github.com/n3d1117/chatgpt-telegram-bot"))).

Section Handlers.

Context {B : Type} `{ChatGPT3Bot B}.
Import Telegram.
Local Open Scope bot_scope.

Definition is_allowed (self : ChatGPT3TelegramBot) (update : Update)
  : result bool :=
  match getitem (config self) "allowed_user_ids" with
  | Raise e => Raise e
  | Ok ids =>
      if String.eqb ids "*" then Ok true
      else match getitem (config self) "allowed_user_ids" with
           | Raise e => Raise e
           | Ok ids' =>
               Ok (contains (str (id (from_user (message update))))
                            (split "," ids'))
           end
  end.

Definition send_disallowed_message (self : ChatGPT3TelegramBot)
    (update : Update) : M B unit :=
  emit (E_send_message
          {| sm_chat_id := chat_id (effective_chat update);
             sm_text := disallowed_message self;
             sm_reply_to_message_id := None;
             sm_parse_mode := None;
             sm_disable_web_page_preview := Some true |}).

Definition help (self : ChatGPT3TelegramBot) (update : Update) : M B unit :=
  emit (E_reply_text (message update) help_text (Some true)).

Definition start (self : ChatGPT3TelegramBot) (update : Update) : M B unit :=
  allowed <- lift (is_allowed self update) ;;
  if negb allowed then
    emit (E_logging_info ("User " ++ name (from_user (message update))
                          ++ " is not allowed to start the bot")) ;;
    send_disallowed_message self update
  else
    emit (E_logging_info "Bot started") ;;
    emit (E_send_message
            {| sm_chat_id := chat_id (effective_chat update);
               sm_text := "I'm a Chat-GPT3 Bot, please talk to me!";
               sm_reply_to_message_id := None;
               sm_parse_mode := None;
               sm_disable_web_page_preview := None |}).

Definition reset (self : ChatGPT3TelegramBot) (update : Update) : M B unit :=
  allowed <- lift (is_allowed self update) ;;
  if negb allowed then
    emit (E_logging_info ("User " ++ name (from_user (message update))
                          ++ " is not allowed to reset the bot")) ;;
    send_disallowed_message self update
  else
    emit (E_logging_info "Resetting the conversation...") ;;
    call_backend E_reset_chat reset_chat ;;
    emit (E_send_message
            {| sm_chat_id := chat_id (effective_chat update);
               sm_text := "Done!";
               sm_reply_to_message_id := None;
               sm_parse_mode := None;
               sm_disable_web_page_preview := None |}).

Definition get_chatgpt_response (self : ChatGPT3TelegramBot)
    (message : string) : M B (gmap string string) :=
  try_except_Exception
    (response <- call_backend (E_get_chat_response message)
                              (get_chat_response message) ;;
     ret response)
    (fun e =>
       emit (E_logging_info ("Error while getting the response: "
                             ++ str_exn e)) ;;
       ret {[ "message" := apology ]}).

Definition prompt (self : ChatGPT3TelegramBot) (update : Update) : M B unit :=
  allowed <- lift (is_allowed self update) ;;
  if negb allowed then
    emit (E_logging_info ("User " ++ name (from_user (message update))
                          ++ " is not allowed to use the bot")) ;;
    send_disallowed_message self update
  else
    emit (E_logging_info ("New message received from user "
                          ++ name (from_user (message update)))) ;;
    emit (E_send_chat_action (chat_id (effective_chat update))
                             CHATACTION_TYPING) ;;
    response <- get_chatgpt_response self (text (message update)) ;;
    reply <- lift (getitem response "message") ;;
    emit (E_send_message
            {| sm_chat_id := chat_id (effective_chat update);
               sm_reply_to_message_id := Some (message_id (message update));
               sm_text := reply;
               sm_parse_mode := Some PARSEMODE_MARKDOWN;
               sm_disable_web_page_preview := None |}).

End Handlers.

(** ** Dispatch

    [run] registers [start], [reset] and [help] for the three commands and
    [prompt] for every text message that is not a command. *)

Inductive handler : Type := on_start | on_reset | on_help | on_prompt.

Definition handle {B : Type} `{ChatGPT3Bot B} (h : handler)
    (self : ChatGPT3TelegramBot) (update : Telegram.Update) : M B unit :=
  match h with
  | on_start => start self update
  | on_reset => reset self update
  | on_help => help self update
  | on_prompt => prompt self update
  end.

(** The handlers that check [is_allowed] first. *)
Definition guarded (h : handler) : bool :=
  match h with on_help => false | _ => true end.

(** The words that end the log line written for a rejected sender. *)
Definition refused_action (h : handler) : string :=
  match h with
  | on_start => "start the bot"
  | on_reset => "reset the bot"
  | _ => "use the bot"
  end.

(** The effects a run adds to the trace it started from. *)
Definition new_effects {B : Type} (before after : World B) : list effect :=
  drop (length (trace before)) (trace after).

(** ** Reading the allow-list as the specification words it

    A user id is allowed when it is one of the comma-delimited fields of
    the configured string: a comma-free stretch of it that starts at the
    beginning or right after a comma and stops at the end or right before
    a comma. *)

Fixpoint occurs (c : ascii) (s : string) : bool :=
  match s with
  | EmptyString => false
  | String a r => Ascii.eqb a c || occurs c r
  end.

Definition is_field (sep : ascii) (u s : string) : Prop :=
  occurs sep u = false /\
  exists p q : string,
    s = p ++ u ++ q /\
    (p = "" \/ exists p', p = p' ++ String sep "") /\
    (q = "" \/ exists q', q = String sep q').

(** [sep.join(l)], the inverse of [split]. *)
Fixpoint join (sep : ascii) (l : list string) : string :=
  match l with
  | [] => ""
  | [x] => x
  | x :: l' => x ++ String sep (join sep l')
  end.

(** ** Sample backends and inputs *)

(** A backend that answers every prompt with the same text and counts the
    turns of the conversation. *)
Record CannedBot : Type := { answer : string; turns : nat }.

#[global] Instance CannedBot_backend : ChatGPT3Bot CannedBot := {|
  get_chat_response _ b :=
    ({| answer := answer b; turns := S (turns b) |},
     Ok (<[ "conversation_id" := "c0" ]> {[ "message" := answer b ]}));
  reset_chat b := ({| answer := answer b; turns := 0 |}, Ok tt)
|}.

(** A backend whose every call raises; the flag chooses between an
    [Exception] and a [BaseException] that is not one. *)
Record DownBot : Type := { interrupted : bool; failures : nat }.

Definition DownBot_raise {A} (b : DownBot) : DownBot * result A :=
  ({| interrupted := interrupted b; failures := S (failures b) |},
   Raise (if interrupted b then RaisedBaseException "KeyboardInterrupt"
          else RaisedException "HTTP 503")).

#[global] Instance DownBot_backend : ChatGPT3Bot DownBot := {|
  get_chat_response _ b := DownBot_raise b;
  reset_chat b := DownBot_raise b
|}.

Definition alice : Telegram.Update :=
  {| Telegram.message :=
       {| Telegram.from_user := {| Telegram.id := Telegram.Int 123;
                                   Telegram.name := "@alice" |};
          Telegram.text := "Hello";
          Telegram.message_id := 77;
          Telegram.chat := {| Telegram.chat_id := 4242;
                              Telegram.chat_type := "private" |} |} |}.

Definition mallory : Telegram.Update :=
  {| Telegram.message :=
       {| Telegram.from_user := {| Telegram.id := Telegram.Int 124;
                                   Telegram.name := "@mallory" |};
          Telegram.text := "Hello";
          Telegram.message_id := 78;
          Telegram.chat := {| Telegram.chat_id := 666;
                              Telegram.chat_type := "private" |} |} |}.

Definition two_ids : gmap string string :=
  <[ "token" := "T" ]> {[ "allowed_user_ids" := "123,456" ]}.

Definition everyone : gmap string string :=
  <[ "token" := "T" ]> {[ "allowed_user_ids" := "*" ]}.

Definition canned0 : World CannedBot :=
  {| gpt3_bot := {| answer := "Hi!"; turns := 3 |};
     trace := [E_logging_info "earlier"] |}.

Definition down0 : World DownBot :=
  {| gpt3_bot := {| interrupted := false; failures := 0 |}; trace := [] |}.

(** The sender's id as [is_allowed] compares it. *)
Definition sender_id (update : Telegram.Update) : string :=
  Telegram.str (Telegram.id (Telegram.from_user (Telegram.message update))).

(** A sender whose id prints as the empty string. *)
Definition anonymous : Telegram.Update :=
  {| Telegram.message :=
       {| Telegram.from_user := {| Telegram.id := Telegram.Str "";
                                   Telegram.name := "nobody" |};
          Telegram.text := "";
          Telegram.message_id := 1;
          Telegram.chat := {| Telegram.chat_id := 5;
                              Telegram.chat_type := "private" |} |} |}.

(** ** The effects the handlers are observed to make *)

Section Observations.

Context {B : Type} `{ChatGPT3Bot B}.
Import Telegram.

Implicit Types (self : ChatGPT3TelegramBot) (update : Update) (w : World B).

(** The notice sent to a sender the policy refuses. *)
Definition rejection self update : effect :=
  E_send_message
    {| sm_chat_id := chat_id (effective_chat update);
       sm_text := disallowed_message self;
       sm_reply_to_message_id := None;
       sm_parse_mode := None;
       sm_disable_web_page_preview := Some true |}.

(** The reply [prompt] sends back, threaded to the prompting message. *)
Definition threaded_reply update (reply : string) : effect :=
  E_send_message
    {| sm_chat_id := chat_id (effective_chat update);
       sm_text := reply;
       sm_reply_to_message_id := Some (message_id (message update));
       sm_parse_mode := Some PARSEMODE_MARKDOWN;
       sm_disable_web_page_preview := None |}.

(** A message sent to the chat with no threading and no parse mode. *)
Definition plain_message update (body : string) : effect :=
  E_send_message
    {| sm_chat_id := chat_id (effective_chat update);
       sm_text := body;
       sm_reply_to_message_id := None;
       sm_parse_mode := None;
       sm_disable_web_page_preview := None |}.

Definition typing update : effect :=
  E_send_chat_action (chat_id (effective_chat update)) CHATACTION_TYPING.

Definition received_log update : effect :=
  E_logging_info ("New message received from user "
                  ++ name (from_user (message update))).

Definition refused_log (h : handler) update : effect :=
  E_logging_info ("User " ++ name (from_user (message update))
                  ++ " is not allowed to " ++ refused_action h).

(** The world after the effects [l], with the backend in state [b]. *)
Definition after w (b : B) (l : list effect) : World B :=
  {| gpt3_bot := b; trace := trace w ++ l |}.

(** The shape of a [send_message] call, by the handler and the policy's
    verdict: only the answer [prompt] sends for an allowed sender is
    threaded and in Markdown. *)
Definition expected_shape (h : handler) self update
    (m : SendMessage) : Prop :=
  match h, is_allowed self update with
  | on_prompt, Ok true =>
      sm_reply_to_message_id m = Some (message_id (message update)) /\
      sm_parse_mode m = Some PARSEMODE_MARKDOWN
  | _, _ =>
      sm_reply_to_message_id m = None /\
      sm_parse_mode m = None /\
      In (sm_text m) ["I'm a Chat-GPT3 Bot, please talk to me!";
                      "Done!";
                      disallowed_message self]
  end.

End Observations.

(** ** Further observations *)

(** The messages a trace has the transport send: the [send_message] calls
    and, for each [reply_text], the [send_message] the library makes of
    it. *)
Definition replies (t : list effect) : list Telegram.SendMessage :=
  omap (fun e => match e with
                 | E_send_message a => Some a
                 | E_reply_text to body p =>
                     Some (Telegram.reply_text_call to body p)
                 | _ => None
                 end) t.

(** Threading and formatting of a reply, by the handler and the policy's
    verdict: [help] replies through [reply_text], the others through
    [send_message]. *)
Definition expected_reply_shape (h : handler) (self : ChatGPT3TelegramBot)
    (update : Telegram.Update) (m : Telegram.SendMessage) : Prop :=
  match h, is_allowed self update with
  | on_help, _ =>
      Telegram.sm_parse_mode m = None /\
      Telegram.sm_reply_to_message_id m =
        if String.eqb (Telegram.chat_type (Telegram.effective_chat update))
                      Telegram.CHAT_PRIVATE
        then None
        else Some (Telegram.message_id (Telegram.message update))
  | on_prompt, Ok true =>
      Telegram.sm_parse_mode m = Some Telegram.PARSEMODE_MARKDOWN /\
      Telegram.sm_reply_to_message_id m =
        Some (Telegram.message_id (Telegram.message update))
  | _, _ =>
      Telegram.sm_parse_mode m = None /\
      Telegram.sm_reply_to_message_id m = None
  end.

(** The reading under which a threaded reply can only come from
    [prompt]. *)
Definition threaded_only_by_prompt (h : handler)
    (l : list Telegram.SendMessage) : Prop :=
  Forall (fun m => Telegram.sm_reply_to_message_id m <> None ->
                   h = on_prompt) l.

(** The chat a transport call names, for the calls that name one. *)
Definition effect_chat (e : effect) : option Z :=
  match e with
  | E_send_message a => Some (Telegram.sm_chat_id a)
  | E_send_chat_action c _ => Some c
  | _ => None
  end.

(** An allow-list written out from numeric ids:
    [",".join(str(n) for n in ns)]. *)
Definition allow_list_of (ns : list Z) : string := join "," (map str_int ns).

(** The characters the [str] of an [int] is made of. *)
Definition is_int_char (c : ascii) : bool := occurs c "-0123456789".

(** A bot whose configuration has a token and nothing else. *)
Definition token_only : gmap string string := {[ "token" := "T" ]}.

Definition bob : Telegram.Update :=
  {| Telegram.message :=
       {| Telegram.from_user := {| Telegram.id := Telegram.Int 456;
                                   Telegram.name := "Bob B." |};
          Telegram.text := "What is Rocq?";
          Telegram.message_id := 9;
          Telegram.chat := {| Telegram.chat_id := (-100200);
                              Telegram.chat_type := "supergroup" |} |} |}.

(** A backend whose responses carry no ["message"]. *)
Record MuteBot : Type := { asked : list string }.

#[global] Instance MuteBot_backend : ChatGPT3Bot MuteBot := {|
  get_chat_response msg b :=
    ({| asked := msg :: asked b |}, Ok {[ "error" := "rate limited" ]});
  reset_chat b := ({| asked := [] |}, Ok tt)
|}.

Definition mute0 : World MuteBot :=
  {| gpt3_bot := {| asked := [] |}; trace := [] |}.

Definition interrupted0 : World DownBot :=
  {| gpt3_bot := {| interrupted := true; failures := 0 |}; trace := [] |}.

(** * Properties *)

(** ** Python's [split] *)

Example split_two : split "," "123,456" = ["123"; "456"].
Proof. reflexivity. Qed.
Example split_empty : split "," "" = [""].
Proof. reflexivity. Qed.
Example split_trailing : split "," "1,,2," = ["1"; ""; "2"; ""].
Proof. reflexivity. Qed.
Example str_int_neg : str_int (-1001234) = "-1001234".
Proof. reflexivity. Qed.
Example str_int_zero : str_int 0 = "0".
Proof. reflexivity. Qed.

(** [repr] picks the quotes by what the string holds, and escapes. *)
Example repr_plain : repr "message" = "'message'".
Proof. reflexivity. Qed.
Example repr_apostrophe :
  repr "it's" = String dquote ("it's" ++ String dquote "").
Proof. reflexivity. Qed.
Example repr_both_quotes :
  repr (String dquote "it's")
  = "'" ++ String dquote ("it" ++ String backslash "'s'").
Proof. reflexivity. Qed.
Example repr_escapes :
  repr (String "010" (String backslash (String "160" (String "233" ""))))
  = "'" ++ String backslash "n"
        ++ String backslash (String backslash "")
        ++ String backslash "xa0"
        ++ String "233" "'".
Proof. reflexivity. Qed.
Example str_exn_KeyError :
  str_exn (KeyError "it's") = String dquote ("it's" ++ String dquote "").
Proof. reflexivity. Qed.


Section SplitFacts.

Variable sep : ascii.

Lemma app_String (c : ascii) (s t : string) :
  String c s ++ t = String c (s ++ t).
Proof. reflexivity. Qed.

Lemma app_empty_r (s : string) : s ++ "" = s.
Proof. induction s as [|c s IH]; [reflexivity|]. now rewrite app_String, IH. Qed.

Lemma app_assoc3 (s t u : string) : (s ++ t) ++ u = s ++ t ++ u.
Proof.
  induction s as [|c s IH]; [reflexivity|]. now rewrite !app_String, IH.
Qed.

Lemma occurs_app (s t : string) :
  occurs sep (s ++ t) = occurs sep s || occurs sep t.
Proof.
  induction s as [|c s IH]; [reflexivity|].
  rewrite app_String. simpl. rewrite IH. now rewrite orb_assoc.
Qed.

(** [split] never returns the empty list. *)
Lemma split_not_nil (s : string) : split sep s <> [].
Proof.
  destruct s as [|c r]; simpl; [discriminate|].
  destruct (Ascii.eqb c sep); [discriminate|].
  destruct (split sep r); discriminate.
Qed.

(** A string without separator is its own single field. *)
Lemma split_no_sep (u : string) : occurs sep u = false -> split sep u = [u].
Proof.
  induction u as [|c u IH]; simpl; [reflexivity|].
  intros [Hc Hu]%orb_false_iff. rewrite Hc, (IH Hu). reflexivity.
Qed.

(** Fields before a separator, then the fields after it. *)
Lemma split_app_sep (a b : string) :
  split sep (a ++ String sep b) = (split sep a ++ split sep b)%list.
Proof.
  induction a as [|c a IH].
  - change ("" ++ String sep b) with (String sep b). simpl.
    rewrite Ascii.eqb_refl.
    pose proof (split_no_sep "" eq_refl) as E. simpl in E.
    destruct b; reflexivity.
  - rewrite app_String. simpl. destruct (Ascii.eqb c sep).
    + now rewrite IH.
    + rewrite IH. pose proof (split_not_nil a) as Hn.
      destruct (split sep a); [congruence|reflexivity].
Qed.

(** No field contains the separator. *)
Lemma split_fields_no_sep (s : string) :
  Forall (fun f => occurs sep f = false) (split sep s).
Proof.
  induction s as [|c r IH]; simpl.
  - repeat constructor.
  - destruct (Ascii.eqb c sep) eqn:Hc.
    + constructor; [reflexivity|assumption].
    + pose proof (split_not_nil r) as Hn.
      destruct (split sep r) as [|f fs]; [congruence|].
      inversion IH as [|? ? Hf Hfs]; subst.
      constructor; [|assumption]. simpl. now rewrite Hc, Hf.
Qed.

(** Joining the fields gives the string back. *)
Lemma join_split (s : string) : join sep (split sep s) = s.
Proof.
  induction s as [|c r IH]; simpl; [reflexivity|].
  destruct (Ascii.eqb c sep) eqn:Hc.
  - apply Ascii.eqb_eq in Hc as ->.
    pose proof (split_not_nil r) as Hn.
    destruct (split sep r) as [|f fs] eqn:E; [congruence|].
    change (join sep ("" :: f :: fs)) with ("" ++ String sep (join sep (f :: fs))).
    now rewrite IH.
  - pose proof (split_not_nil r) as Hn.
    destruct (split sep r) as [|f fs] eqn:E; [congruence|].
    destruct fs as [|g gs].
    + simpl in *. now rewrite IH.
    + change (join sep (String c f :: g :: gs))
        with (String c f ++ String sep (join sep (g :: gs))).
      change (join sep (f :: g :: gs))
        with (f ++ String sep (join sep (g :: gs))) in IH.
      now rewrite app_String, IH.
Qed.

Lemma join_cons (x : string) (l : list string) :
  l <> [] -> join sep (x :: l) = x ++ String sep (join sep l).
Proof. destruct l; [congruence|reflexivity]. Qed.

(** Where a field sits in the joined string. *)
Lemma join_middle (l1 l2 : list string) (u : string) :
  exists p q : string,
    join sep ((l1 ++ u :: l2)%list) = p ++ u ++ q /\
    (p = "" \/ exists p', p = p' ++ String sep "") /\
    (q = "" \/ exists q', q = String sep q').
Proof.
  induction l1 as [|x l1 IH].
  - exists "". destruct l2 as [|y l2].
    + exists "". simpl. rewrite app_empty_r. auto.
    + exists (String sep (join sep (y :: l2))). split; [reflexivity|eauto].
  - destruct IH as (p & q & E & Hp & Hq).
    exists (x ++ String sep p), q. split; [|split; [right|exact Hq]].
    + change (((x :: l1) ++ u :: l2)%list) with (x :: (l1 ++ u :: l2)%list).
      rewrite join_cons by (destruct l1; discriminate).
      rewrite E. now rewrite app_assoc3, app_String.
    + destruct Hp as [->|[p' ->]].
      * exists x. reflexivity.
      * exists (x ++ String sep p'). now rewrite app_assoc3, app_String.
Qed.

(** The elements of [split] are exactly the delimited fields. *)
Lemma In_split_is_field (u s : string) :
  In u (split sep s) <-> is_field sep u s.
Proof.
  split.
  - intros Hin. split.
    + pose proof (split_fields_no_sep s) as Hall.
      rewrite List.Forall_forall in Hall. now apply Hall.
    + apply in_split in Hin as (l1 & l2 & E).
      destruct (join_middle l1 l2 u) as (p & q & Ej & Hp & Hq).
      exists p, q. split; [|auto].
      now rewrite <- Ej, <- E, join_split.
  - intros (Hu & p & q & -> & Hp & Hq).
    assert (Hq' : In u (split sep (u ++ q))).
    { destruct Hq as [->|[q' ->]].
      - rewrite app_empty_r, split_no_sep by assumption. now left.
      - rewrite split_app_sep, split_no_sep by assumption. now left. }
    destruct Hp as [->|[p' ->]]; [exact Hq'|].
    rewrite app_assoc3, app_String.
    change ("" ++ u ++ q) with (u ++ q).
    rewrite split_app_sep. apply in_or_app. now right.
Qed.

Lemma contains_In (x : string) (l : list string) :
  contains x l = true <-> In x l.
Proof.
  unfold contains. rewrite existsb_exists. split.
  - intros (y & Hy & ->%String.eqb_eq). exact Hy.
  - intros Hx. exists x. split; [exact Hx|apply String.eqb_refl].
Qed.

End SplitFacts.

(** [split] undoes [join] on a non-empty list of separator-free fields, so
    together with [join_split] the fields of a string are determined. *)
Lemma split_join (sep : ascii) (l : list string) :
  l <> [] -> Forall (fun f => occurs sep f = false) l ->
  split sep (join sep l) = l.
Proof.
  induction l as [|x l IH]; [congruence|]. intros _ Hall.
  inversion Hall as [|? ? Hx Hl]; subst.
  destruct l as [|y l].
  - simpl. now apply split_no_sep.
  - rewrite join_cons by discriminate.
    rewrite split_app_sep, split_no_sep by assumption.
    rewrite IH by (discriminate || assumption). reflexivity.
Qed.

(** ** The access policy *)

Section AccessPolicy.

Import Telegram.

Lemma is_allowed_unfold (self : ChatGPT3TelegramBot) (update : Update)
    (ids : string) :
  config self !! "allowed_user_ids" = Some ids ->
  is_allowed self update =
    Ok (if String.eqb ids "*" then true
        else contains (sender_id update) (split "," ids)).
Proof.
  intros E. unfold is_allowed, getitem. rewrite E.
  destruct (String.eqb ids "*"); reflexivity.
Qed.

(** C2: when the configured allow-list is the sentinel ["*"], [is_allowed]
    returns [True] for every update, whatever the sender's id is (the
    empty string included). *)
Theorem is_allowed_sentinel (self : ChatGPT3TelegramBot) (update : Update) :
  config self !! "allowed_user_ids" = Some "*" ->
  is_allowed self update = Ok true.
Proof. intros E. now rewrite (is_allowed_unfold _ _ _ E). Qed.

(** C3: when the configured allow-list is not the sentinel, [is_allowed]
    returns a boolean, and it is [True] exactly when the sender's id, as a
    string, is one of the comma-delimited fields of the configured string,
    compared as it stands. *)
Theorem is_allowed_explicit_list (self : ChatGPT3TelegramBot)
    (update : Update) (ids : string) :
  config self !! "allowed_user_ids" = Some ids ->
  ids <> "*" ->
  exists b : bool,
    is_allowed self update = Ok b /\
    (b = true <-> is_field "," (sender_id update) ids).
Proof.
  intros E Hne. rewrite (is_allowed_unfold _ _ _ E).
  apply String.eqb_neq in Hne. rewrite Hne.
  eexists. split; [reflexivity|].
  now rewrite contains_In, In_split_is_field.
Qed.

End AccessPolicy.

(** The sentinel admits a sender whose id is the empty string. *)
Lemma is_allowed_sentinel_witness :
  sender_id anonymous = "" /\ is_allowed (init everyone) anonymous = Ok true.
Proof.
  split; [reflexivity|].
  apply (is_allowed_sentinel (init everyone) anonymous). reflexivity.
Defined.

(** With the allow-list ["123,456"], sender 123 is allowed and 124 is not. *)
Lemma is_allowed_explicit_list_witness :
  (is_allowed (init two_ids) alice = Ok true /\
   is_field "," "123" "123,456") /\
  (is_allowed (init two_ids) mallory = Ok false /\
   ~ is_field "," "124" "123,456").
Proof.
  split.
  - destruct (is_allowed_explicit_list (init two_ids) alice "123,456")
      as (b & E & Hb); [reflexivity|discriminate|].
    vm_compute in E. injection E as <-.
    split; [reflexivity|]. apply Hb. reflexivity.
  - destruct (is_allowed_explicit_list (init two_ids) mallory "123,456")
      as (b & E & Hb); [reflexivity|discriminate|].
    vm_compute in E. injection E as <-.
    split; [reflexivity|]. intros F. apply Hb in F. discriminate.
Defined.

(** Fields are compared as they stand: a space after the comma, a leading
    zero or a trailing comma is not normalised away. *)
Example no_trimming :
  contains "456" (split "," "123, 456") = false /\
  contains " 456" (split "," "123, 456") = true /\
  contains "123" (split "," "0123,456") = false /\
  contains "" (split "," "123,") = true.
Proof. repeat split. Qed.

(** ** The relay *)

Lemma new_effects_app {B : Type} (w w' : World B) (l : list effect) :
  trace w' = (trace w ++ l)%list -> new_effects w w' = l.
Proof. intros E. unfold new_effects. rewrite E. apply drop_app_length. Qed.

(** Runs a handler symbolically: unfolds the monad and normalises the
    trace. *)
Ltac run_bot :=
  unfold handle, start, reset, prompt, help, send_disallowed_message,
    get_chatgpt_response, try_except_Exception, call_backend, bind, lift,
    emit, ret, getitem;
  simpl.

Ltac flat_trace := simpl; rewrite <- ?app_assoc; simpl.

Section Relay.

Context {B : Type} `{ChatGPT3Bot B}.
Import Telegram.

Implicit Types (self : ChatGPT3TelegramBot) (update : Update) (w : World B).

(** What every guarded handler does for a refused sender. *)
Lemma handle_refused (h : handler) self update w :
  guarded h = true ->
  is_allowed self update = Ok false ->
  handle h self update w =
    (after w (gpt3_bot w) [refused_log h update; rejection self update],
     Ok tt).
Proof.
  intros Hg Hna. destruct h; try discriminate; run_bot; rewrite Hna; simpl;
    unfold after; flat_trace; reflexivity.
Qed.

(** [start] for an allowed sender: the greeting. *)
Lemma start_allowed self update w :
  is_allowed self update = Ok true ->
  start self update w =
    (after w (gpt3_bot w)
       [E_logging_info "Bot started";
        plain_message update "I'm a Chat-GPT3 Bot, please talk to me!"],
     Ok tt).
Proof.
  intros Ha. run_bot. rewrite Ha. simpl. unfold after. flat_trace.
  reflexivity.
Qed.

(** A handler whose policy lookup raises makes no call at all. *)
Lemma handle_policy_raises (h : handler) self update w (e : exn) :
  guarded h = true ->
  is_allowed self update = Raise e ->
  handle h self update w = (w, Raise e).
Proof.
  intros Hg He. destruct h; try discriminate; run_bot; now rewrite He.
Qed.

(** C1: a guarded handler ([start], [reset], [prompt]) run for a sender
    the policy refuses returns normally and leaves the backend as it was;
    what it sends on the transport is exactly one rejection message, the
    fixed notice, to the event's chat; it makes no backend call and sends no
    typing indicator.  Besides, one line naming the sender goes to the
    log. *)
Theorem refused_sender_effects (h : handler) (cfg : gmap string string)
    update w :
  guarded h = true ->
  is_allowed (init cfg) update = Ok false ->
  let w' := fst (handle h (init cfg) update w) in
  snd (handle h (init cfg) update w) = Ok tt /\
  gpt3_bot w' = gpt3_bot w /\
  trace w' = (trace w ++ [refused_log h update;
                          rejection (init cfg) update])%list /\
  filter is_transport (new_effects w w') = [rejection (init cfg) update] /\
  filter is_backend_call (new_effects w w') = [] /\
  filter is_typing (new_effects w w') = [].
Proof.
  intros Hg Hna. rewrite (handle_refused h _ _ _ Hg Hna). simpl.
  rewrite (new_effects_app w (after w (gpt3_bot w) _) _ eq_refl).
  repeat split.
Qed.

End Relay.

(** [/reset] from a sender outside ["123,456"]. *)
Lemma refused_sender_effects_witness :
  guarded on_reset = true /\
  is_allowed (init two_ids) mallory = Ok false /\
  trace (fst (handle on_reset (init two_ids) mallory canned0))
    = [E_logging_info "earlier";
       E_logging_info "User @mallory is not allowed to reset the bot";
       rejection (init two_ids) mallory] /\
  gpt3_bot (fst (handle on_reset (init two_ids) mallory canned0))
    = gpt3_bot canned0.
Proof.
  assert (Hg : guarded on_reset = true) by reflexivity.
  assert (Ha : is_allowed (init two_ids) mallory = Ok false) by reflexivity.
  destruct (refused_sender_effects on_reset two_ids mallory canned0 Hg Ha)
    as (_ & Hb & Ht & _).
  exact (conj Hg (conj Ha (conj Ht Hb))).
Defined.

Section Prompt.

Context {B : Type} `{ChatGPT3Bot B}.
Import Telegram.

Implicit Types (self : ChatGPT3TelegramBot) (update : Update) (w : World B).

(** [get_chatgpt_response] when the backend answers. *)
Lemma get_chatgpt_response_ok self (msg : string) w (b' : B)
    (response : gmap string string) :
  get_chat_response msg (gpt3_bot w) = (b', Ok response) ->
  get_chatgpt_response self msg w =
    (after w b' [E_get_chat_response msg], Ok response).
Proof. intros E. run_bot. rewrite E. reflexivity. Qed.

(** [get_chatgpt_response] when the backend raises an [Exception]: the
    error is logged and the apology is returned in its place. *)
Lemma get_chatgpt_response_caught self (msg : string) w (b' : B) (e : exn) :
  get_chat_response msg (gpt3_bot w) = (b', Raise e) ->
  is_Exception e = true ->
  get_chatgpt_response self msg w =
    (after w b' [E_get_chat_response msg;
                 E_logging_info ("Error while getting the response: "
                                 ++ str_exn e)],
     Ok {[ "message" := apology ]}).
Proof.
  intros E He. run_bot. rewrite E, He. unfold after. flat_trace. reflexivity.
Qed.

(** What [except Exception] lets through. *)
Lemma get_chatgpt_response_uncaught self (msg : string) w (b' : B) (e : exn) :
  get_chat_response msg (gpt3_bot w) = (b', Raise e) ->
  is_Exception e = false ->
  get_chatgpt_response self msg w =
    (after w b' [E_get_chat_response msg], Raise e).
Proof. intros E He. run_bot. rewrite E, He. reflexivity. Qed.

(** [prompt] for an allowed sender, up to the backend's answer. *)
Lemma prompt_allowed self update w :
  is_allowed self update = Ok true ->
  prompt self update w =
    match get_chatgpt_response self (text (message update))
            (after w (gpt3_bot w) [received_log update; typing update]) with
    | (w1, Ok response) =>
        match response !! "message" with
        | Some reply =>
            (after w1 (gpt3_bot w1) [threaded_reply update reply], Ok tt)
        | None => (w1, Raise (KeyError "message"))
        end
    | (w1, Raise e) => (w1, Raise e)
    end.
Proof.
  intros Ha. unfold prompt, bind at 1, lift at 1. rewrite Ha. simpl.
  unfold bind at 1, emit at 1. unfold bind at 1, emit at 1.
  unfold bind at 1.
  replace ({| gpt3_bot := _; trace := _ |})
    with (after w (gpt3_bot w) [received_log update; typing update])
    by (unfold after; flat_trace; reflexivity).
  destruct (get_chatgpt_response _ _ _) as [w1 [response|e]]; [|reflexivity].
  unfold bind, lift, getitem, emit.
  destruct (response !! "message"); reflexivity.
Qed.

End Prompt.

Section PromptClaims.

Context {B : Type} `{ChatGPT3Bot B}.
Import Telegram.

Implicit Types (self : ChatGPT3TelegramBot) (update : Update) (w : World B).

Lemma after_after w (b b' : B) (l l' : list effect) :
  after (after w b l) b' l' = after w b' (l ++ l').
Proof. unfold after. simpl. now rewrite <- app_assoc. Qed.

(** [prompt] for an allowed sender, by what the backend call does. *)
Lemma prompt_run self update w :
  is_allowed self update = Ok true ->
  prompt self update w =
    match get_chat_response (text (message update)) (gpt3_bot w) with
    | (b', Ok response) =>
        match response !! "message" with
        | Some m =>
            (after w b' [received_log update;
                         typing update;
                         E_get_chat_response (text (message update));
                         threaded_reply update m], Ok tt)
        | None =>
            (after w b' [received_log update;
                         typing update;
                         E_get_chat_response (text (message update))],
             Raise (KeyError "message"))
        end
    | (b', Raise e) =>
        if is_Exception e then
          (after w b' [received_log update;
                       typing update;
                       E_get_chat_response (text (message update));
                       E_logging_info ("Error while getting the response: "
                                       ++ str_exn e);
                       threaded_reply update apology], Ok tt)
        else
          (after w b' [received_log update;
                       typing update;
                       E_get_chat_response (text (message update))],
           Raise e)
    end.
Proof.
  intros Ha. rewrite (prompt_allowed _ _ _ Ha).
  destruct (get_chat_response (text (message update)) (gpt3_bot w))
    as [b' [response|e]] eqn:E.
  - rewrite (get_chatgpt_response_ok self _ (after w (gpt3_bot w) _)
               b' response E).
    destruct (response !! "message"); rewrite !after_after; reflexivity.
  - destruct (is_Exception e) eqn:He.
    + rewrite (get_chatgpt_response_caught self _ (after w (gpt3_bot w) _)
                 b' e E He).
      rewrite lookup_singleton_eq, !after_after. reflexivity.
    + rewrite (get_chatgpt_response_uncaught self _ (after w (gpt3_bot w) _)
                 b' e E He).
      rewrite !after_after. reflexivity.
Qed.

(** C4: [prompt] for an allowed sender, when the backend returns a response
    whose ["message"] is [m]: the typing indicator goes to the event's chat
    first, then the backend is asked, then exactly one message is sent, with
    text [m], parse mode Markdown and [reply_to_message_id] the id of the
    prompting message. *)
Theorem prompt_success self update w (b' : B)
    (response : gmap string string) (m : string) :
  is_allowed self update = Ok true ->
  get_chat_response (text (message update)) (gpt3_bot w) = (b', Ok response) ->
  response !! "message" = Some m ->
  prompt self update w =
    (after w b' [received_log update;
                 typing update;
                 E_get_chat_response (text (message update));
                 threaded_reply update m],
     Ok tt).
Proof.
  intros Ha E Hm. rewrite (prompt_allowed _ _ _ Ha).
  rewrite (get_chatgpt_response_ok self _ (after w (gpt3_bot w) _) b' response E).
  rewrite Hm, !after_after. reflexivity.
Qed.

(** C5: [prompt] for an allowed sender, when the backend raises an
    [Exception]: the handler returns normally, the error is written to the
    log, and one message is still sent, whose text is the fixed apology,
    threaded to the prompting message and in Markdown like a real answer. *)
Theorem prompt_backend_error self update w (b' : B) (e : exn) :
  is_allowed self update = Ok true ->
  get_chat_response (text (message update)) (gpt3_bot w) = (b', Raise e) ->
  is_Exception e = true ->
  prompt self update w =
    (after w b' [received_log update;
                 typing update;
                 E_get_chat_response (text (message update));
                 E_logging_info ("Error while getting the response: "
                                 ++ str_exn e);
                 threaded_reply update
                   "I'm having some trouble talking to you, please try again later."],
     Ok tt).
Proof.
  intros Ha E He. rewrite (prompt_allowed _ _ _ Ha).
  rewrite (get_chatgpt_response_caught self _ (after w (gpt3_bot w) _) b' e E He).
  rewrite lookup_singleton_eq, !after_after. reflexivity.
Qed.

(** An exception that is not an [Exception] (a [KeyboardInterrupt], say)
    is not caught: it leaves [prompt] after the backend call. *)
Lemma prompt_backend_interrupt self update w (b' : B) (e : exn) :
  is_allowed self update = Ok true ->
  get_chat_response (text (message update)) (gpt3_bot w) = (b', Raise e) ->
  is_Exception e = false ->
  prompt self update w =
    (after w b' [received_log update;
                 typing update;
                 E_get_chat_response (text (message update))],
     Raise e).
Proof.
  intros Ha E He. rewrite (prompt_allowed _ _ _ Ha).
  rewrite (get_chatgpt_response_uncaught self _ (after w (gpt3_bot w) _) b' e E He).
  rewrite !after_after. reflexivity.
Qed.

(** A response without a ["message"] entry: the subscript raises before
    anything is sent. *)
Lemma prompt_response_without_message self update w (b' : B)
    (response : gmap string string) :
  is_allowed self update = Ok true ->
  get_chat_response (text (message update)) (gpt3_bot w) = (b', Ok response) ->
  response !! "message" = None ->
  prompt self update w =
    (after w b' [received_log update;
                 typing update;
                 E_get_chat_response (text (message update))],
     Raise (KeyError "message")).
Proof.
  intros Ha E Hm. rewrite (prompt_allowed _ _ _ Ha).
  rewrite (get_chatgpt_response_ok self _ (after w (gpt3_bot w) _) b' response E).
  rewrite Hm, !after_after. reflexivity.
Qed.

(** C9: [prompt] for an allowed sender sends the typing indicator exactly
    once, right before the one backend call, whatever the backend then does;
    when the backend raises an [Exception], what reaches the chat is the
    typing indicator followed by the apology, in that order. *)
Theorem prompt_typing_once self update w :
  is_allowed self update = Ok true ->
  let w' := fst (prompt self update w) in
  (exists rest : list effect,
     new_effects w w' =
       received_log update :: typing update ::
       E_get_chat_response (text (message update)) :: rest /\
     filter is_typing rest = [] /\
     filter is_backend_call rest = []) /\
  length (filter is_typing (new_effects w w')) = 1%nat /\
  (forall (b' : B) (e : exn),
     get_chat_response (text (message update)) (gpt3_bot w) = (b', Raise e) ->
     is_Exception e = true ->
     filter is_transport (new_effects w w') =
       [typing update; threaded_reply update apology]).
Proof.
  intros Ha.
  destruct (get_chat_response (text (message update)) (gpt3_bot w))
    as [b' [response|e]] eqn:E.
  - destruct (response !! "message") as [m|] eqn:Hm.
    + rewrite (prompt_run _ _ _ Ha), E, Hm. simpl.
      rewrite (new_effects_app w (after w b' _) _ eq_refl).
      split; [|split; [reflexivity|discriminate]].
      exists [threaded_reply update m]. repeat split.
    + rewrite (prompt_response_without_message _ _ _ _ _ Ha E Hm). simpl.
      rewrite (new_effects_app w (after w b' _) _ eq_refl).
      split; [|split; [reflexivity|discriminate]].
      exists []. repeat split.
  - destruct (is_Exception e) eqn:He.
    + rewrite (prompt_run _ _ _ Ha), E, He. simpl.
      rewrite (new_effects_app w (after w b' _) _ eq_refl).
      split; [|split; [reflexivity|intros; reflexivity]].
      eexists. repeat split.
    + rewrite (prompt_backend_interrupt _ _ _ _ _ Ha E He). simpl.
      rewrite (new_effects_app w (after w b' _) _ eq_refl).
      split; [|split; [reflexivity|]].
      * exists []. repeat split.
      * intros b'' e' [= _ <-] He'. congruence.
Qed.

End PromptClaims.

Section ResetAndHelp.

Context {B : Type} `{ChatGPT3Bot B}.
Import Telegram.

Implicit Types (self : ChatGPT3TelegramBot) (update : Update) (w : World B).

(** [reset] for an allowed sender, up to the backend's answer. *)
Lemma reset_allowed self update w :
  is_allowed self update = Ok true ->
  reset self update w =
    match reset_chat (gpt3_bot w) with
    | (b', Ok _) =>
        (after w b' [E_logging_info "Resetting the conversation...";
                     E_reset_chat; plain_message update "Done!"], Ok tt)
    | (b', Raise e) =>
        (after w b' [E_logging_info "Resetting the conversation...";
                     E_reset_chat], Raise e)
    end.
Proof.
  intros Ha. run_bot. rewrite Ha. simpl.
  destruct (reset_chat (gpt3_bot w)) as [b' [[]|e]];
    unfold after; flat_trace; reflexivity.
Qed.

(** C6: [reset] for an allowed sender, when the backend's reset returns:
    [reset_chat] is called exactly once, and after it exactly one message,
    ["Done!"], is sent to the event's chat. *)
Theorem reset_success self update w (b' : B) :
  is_allowed self update = Ok true ->
  reset_chat (gpt3_bot w) = (b', Ok tt) ->
  reset self update w =
    (after w b' [E_logging_info "Resetting the conversation...";
                 E_reset_chat;
                 plain_message update "Done!"],
     Ok tt) /\
  length (filter is_reset_call
            (new_effects w (fst (reset self update w)))) = 1%nat /\
  filter is_transport (new_effects w (fst (reset self update w)))
    = [plain_message update "Done!"].
Proof.
  intros Ha E. rewrite (reset_allowed _ _ _ Ha), E. simpl.
  rewrite (new_effects_app w (after w b' _) _ eq_refl).
  repeat split.
Qed.

(** C7: [reset] for an allowed sender, when the backend's reset raises: the
    exception leaves the handler, and nothing is sent to the chat (no
    ["Done!"]). *)
Theorem reset_backend_error self update w (b' : B) (e : exn) :
  is_allowed self update = Ok true ->
  reset_chat (gpt3_bot w) = (b', Raise e) ->
  reset self update w =
    (after w b' [E_logging_info "Resetting the conversation...";
                 E_reset_chat],
     Raise e) /\
  filter is_transport (new_effects w (fst (reset self update w))) = [].
Proof.
  intros Ha E. rewrite (reset_allowed _ _ _ Ha), E. simpl.
  rewrite (new_effects_app w (after w b' _) _ eq_refl).
  repeat split.
Qed.

Lemma help_run self update w :
  help self update w =
    (after w (gpt3_bot w)
       [E_reply_text (message update) help_text (Some true)], Ok tt).
Proof. reflexivity. Qed.

(** C8: [help] never consults the allow-list: for every bot, update and
    world it returns normally after exactly one effect, a reply to the
    message with the usage text and the link preview disabled; the usage
    text has one line for each of [/start], [/reset] and [/help]. *)
Theorem help_unconditional self update w :
  help self update w =
    (after w (gpt3_bot w)
       [E_reply_text (message update) help_text (Some true)], Ok tt) /\
  split "010" help_text =
    ["/start - Start the bot";
     "/reset - Reset conversation";
     "/help - Help menu";
     "";
     "Open source at https://github.com/n3d1117/chatgpt-telegram-bot"].
Proof. split; reflexivity. Qed.

(** [help] answers a sender that every guarded handler refuses. *)
Lemma help_ignores_policy self update w :
  is_allowed self update = Ok false ->
  new_effects w (fst (help self update w))
    = [E_reply_text (message update) help_text (Some true)] /\
  new_effects w (fst (start self update w))
    = [refused_log on_start update; rejection self update].
Proof.
  intros Hna. split.
  - apply new_effects_app. reflexivity.
  - change (start self update w) with (handle on_start self update w).
    rewrite (handle_refused on_start _ _ _ eq_refl Hna).
    apply new_effects_app. reflexivity.
Qed.

End ResetAndHelp.

(** Closes a [Forall] over an explicit list of messages, field by field. *)
Ltac shapes :=
  simpl;
  repeat match goal with |- Forall _ _ => constructor end;
  repeat split; simpl; auto.

Section Shapes.

Context {B : Type} `{ChatGPT3Bot B}.
Import Telegram.

Implicit Types (self : ChatGPT3TelegramBot) (update : Update) (w : World B).

Lemma new_effects_same w : new_effects w w = [].
Proof. apply new_effects_app. now rewrite app_nil_r. Qed.

(** Every [send_message] call of [start], [reset] and of the rejection
    path (the greeting, ["Done!"], the disallowed notice) passes neither
    [reply_to_message_id] nor [parse_mode]; the one call that passes them
    is the answer [prompt] sends for an allowed sender, threaded to the
    prompting message and in Markdown. *)
Lemma send_message_shapes (h : handler) self update w :
  Forall (expected_shape h self update)
         (sent_messages (new_effects w (fst (handle h self update w)))).
Proof.
  unfold expected_shape.
  destruct (is_allowed self update) as [[|]|e] eqn:Ha.
  - (* allowed *)
    destruct h.
    + simpl. rewrite (start_allowed _ _ _ Ha). simpl.
      rewrite (new_effects_app w (after w (gpt3_bot w) _) _ eq_refl).
      shapes.
    + simpl. rewrite (reset_allowed _ _ _ Ha).
      destruct (reset_chat (gpt3_bot w)) as [b' [[]|e]]; simpl;
        rewrite (new_effects_app w (after w b' _) _ eq_refl);
        shapes.
    + unfold handle. rewrite help_run. simpl.
      rewrite (new_effects_app w (after w (gpt3_bot w) _) _ eq_refl).
      shapes.
    + simpl.
      destruct (get_chat_response (text (message update)) (gpt3_bot w))
        as [b' [response|e]] eqn:E.
      * destruct (response !! "message") as [m|] eqn:Hm.
        -- rewrite (prompt_run _ _ _ Ha), E, Hm. simpl.
           rewrite (new_effects_app w (after w b' _) _ eq_refl).
           shapes.
        -- rewrite (prompt_response_without_message _ _ _ _ _ Ha E Hm). simpl.
           rewrite (new_effects_app w (after w b' _) _ eq_refl).
           shapes.
      * destruct (is_Exception e) eqn:He.
        -- rewrite (prompt_run _ _ _ Ha), E, He. simpl.
           rewrite (new_effects_app w (after w b' _) _ eq_refl).
           shapes.
        -- rewrite (prompt_backend_interrupt _ _ _ _ _ Ha E He). simpl.
           rewrite (new_effects_app w (after w b' _) _ eq_refl).
           shapes.
  - (* refused *)
    destruct h;
      [ rewrite (handle_refused on_start _ _ _ eq_refl Ha)
      | rewrite (handle_refused on_reset _ _ _ eq_refl Ha)
      | unfold handle; rewrite help_run
      | rewrite (handle_refused on_prompt _ _ _ eq_refl Ha) ];
      simpl;
      rewrite (new_effects_app w (after w (gpt3_bot w) _) _ eq_refl);
      shapes.
  - (* the policy itself raises *)
    destruct h;
      [ rewrite (handle_policy_raises on_start _ _ _ _ eq_refl Ha)
      | rewrite (handle_policy_raises on_reset _ _ _ _ eq_refl Ha)
      | unfold handle; rewrite help_run; simpl;
        rewrite (new_effects_app w (after w (gpt3_bot w) _) _ eq_refl)
      | rewrite (handle_policy_raises on_prompt _ _ _ _ eq_refl Ha) ];
      simpl; rewrite ?new_effects_same; shapes.
Qed.

End Shapes.

(** ** Sample runs *)

(** Sender 123 says "Hello" and the backend answers "Hi!". *)
Lemma prompt_success_witness :
  is_allowed (init two_ids) alice = Ok true /\
  prompt (init two_ids) alice canned0 =
    ({| gpt3_bot := {| answer := "Hi!"; turns := 4 |};
        trace := [E_logging_info "earlier";
                  E_logging_info "New message received from user @alice";
                  E_send_chat_action 4242 "typing";
                  E_get_chat_response "Hello";
                  E_send_message
                    {| Telegram.sm_chat_id := 4242;
                       Telegram.sm_text := "Hi!";
                       Telegram.sm_reply_to_message_id := Some 77;
                       Telegram.sm_parse_mode := Some "Markdown";
                       Telegram.sm_disable_web_page_preview := None |}] |},
     Ok tt).
Proof.
  split; [reflexivity|].
  apply (prompt_success (init two_ids) alice canned0
           {| answer := "Hi!"; turns := 4 |}
           (<[ "conversation_id" := "c0" ]> {[ "message" := "Hi!" ]}) "Hi!");
    reflexivity.
Defined.

(** Sender 123 says "Hello" and the backend is down. *)
Lemma prompt_backend_error_witness :
  is_allowed (init two_ids) alice = Ok true /\
  prompt (init two_ids) alice down0 =
    ({| gpt3_bot := {| interrupted := false; failures := 1 |};
        trace := [E_logging_info "New message received from user @alice";
                  E_send_chat_action 4242 "typing";
                  E_get_chat_response "Hello";
                  E_logging_info "Error while getting the response: HTTP 503";
                  E_send_message
                    {| Telegram.sm_chat_id := 4242;
                       Telegram.sm_text :=
                         "I'm having some trouble talking to you, please try again later.";
                       Telegram.sm_reply_to_message_id := Some 77;
                       Telegram.sm_parse_mode := Some "Markdown";
                       Telegram.sm_disable_web_page_preview := None |}] |},
     Ok tt).
Proof.
  split; [reflexivity|].
  apply (prompt_backend_error (init two_ids) alice down0
           {| interrupted := false; failures := 1 |}
           (RaisedException "HTTP 503")); reflexivity.
Defined.

(** Sender 123 resets a conversation of three turns. *)
Lemma reset_success_witness :
  is_allowed (init two_ids) alice = Ok true /\
  reset (init two_ids) alice canned0 =
    ({| gpt3_bot := {| answer := "Hi!"; turns := 0 |};
        trace := [E_logging_info "earlier";
                  E_logging_info "Resetting the conversation...";
                  E_reset_chat;
                  E_send_message
                    {| Telegram.sm_chat_id := 4242;
                       Telegram.sm_text := "Done!";
                       Telegram.sm_reply_to_message_id := None;
                       Telegram.sm_parse_mode := None;
                       Telegram.sm_disable_web_page_preview := None |}] |},
     Ok tt).
Proof.
  split; [reflexivity|].
  apply (reset_success (init two_ids) alice canned0
           {| answer := "Hi!"; turns := 0 |}); reflexivity.
Defined.

(** Sender 123 resets while the backend is down. *)
Lemma reset_backend_error_witness :
  is_allowed (init two_ids) alice = Ok true /\
  reset (init two_ids) alice down0 =
    ({| gpt3_bot := {| interrupted := false; failures := 1 |};
        trace := [E_logging_info "Resetting the conversation...";
                  E_reset_chat] |},
     Raise (RaisedException "HTTP 503")).
Proof.
  split; [reflexivity|].
  apply (reset_backend_error (init two_ids) alice down0
           {| interrupted := false; failures := 1 |}
           (RaisedException "HTTP 503")); reflexivity.
Defined.

(** The backend is down: the chat sees "typing", then the apology. *)
Lemma prompt_typing_once_witness :
  is_allowed (init two_ids) alice = Ok true /\
  filter is_transport
    (new_effects down0 (fst (prompt (init two_ids) alice down0)))
  = [E_send_chat_action 4242 "typing";
     E_send_message
       {| Telegram.sm_chat_id := 4242;
          Telegram.sm_text :=
            "I'm having some trouble talking to you, please try again later.";
          Telegram.sm_reply_to_message_id := Some 77;
          Telegram.sm_parse_mode := Some "Markdown";
          Telegram.sm_disable_web_page_preview := None |}].
Proof.
  split; [reflexivity|].
  destruct (prompt_typing_once (init two_ids) alice down0 eq_refl)
    as (_ & _ & Hfail).
  exact (Hfail {| interrupted := false; failures := 1 |}
               (RaisedException "HTTP 503") eq_refl eq_refl).
Defined.

(** An interrupt raised inside the backend call is not an [Exception] and
    leaves [prompt]. *)
Example prompt_interrupted :
  prompt (init two_ids) alice
    {| gpt3_bot := {| interrupted := true; failures := 0 |}; trace := [] |}
  = ({| gpt3_bot := {| interrupted := true; failures := 1 |};
        trace := [E_logging_info "New message received from user @alice";
                  E_send_chat_action 4242 "typing";
                  E_get_chat_response "Hello"] |},
     Raise (RaisedBaseException "KeyboardInterrupt")).
Proof. reflexivity. Qed.

(** * Further properties *)

(** ** How [str] prints an [int] *)

Lemma uint_chars (c : ascii) (d : Decimal.uint) :
  is_int_char c = false -> occurs c (NilEmpty.string_of_uint d) = false.
Proof.
  unfold is_int_char. simpl. intros Hc.
  repeat (apply orb_false_iff in Hc as [? Hc]).
  induction d; simpl; rewrite ?IHd; try reflexivity.
  all: rewrite orb_false_r; assumption.
Qed.

Lemma str_int_chars (c : ascii) (n : Z) :
  is_int_char c = false -> occurs c (str_int n) = false.
Proof.
  intros Hc. pose proof (uint_chars c) as Hu.
  assert (Hminus : Ascii.eqb "-" c = false).
  { unfold is_int_char in Hc. simpl in Hc.
    now apply orb_false_iff in Hc as [? _]. }
  unfold str_int. destruct n as [|p|p]; unfold Z.to_int.
  - apply (Hu (Decimal.D0 Decimal.Nil) Hc).
  - pose proof (Unsigned.to_uint_nonnil p) as Hn.
    specialize (Hu (Pos.to_uint p) Hc).
    destruct (Pos.to_uint p); [congruence|exact Hu..].
  - pose proof (Unsigned.to_uint_nonnil p) as Hn.
    specialize (Hu (Pos.to_uint p) Hc).
    unfold NilZero.string_of_int.
    change (occurs c (String "-" ?s)) with (Ascii.eqb "-" c || occurs c s).
    rewrite Hminus.
    destruct (Pos.to_uint p); [congruence|exact Hu..].
Qed.

Lemma str_int_nonempty (n : Z) : str_int n <> "".
Proof.
  unfold str_int. destruct n as [|p|p]; simpl; try discriminate.
  pose proof (Unsigned.to_uint_nonnil p) as Hn.
  destruct (Pos.to_uint p); simpl; congruence.
Qed.

(** Two different numbers never print alike. *)
Lemma str_int_inj (n m : Z) : str_int n = str_int m -> n = m.
Proof.
  unfold str_int. intros E.
  assert (Hnz : forall z, Z.to_int z <> Decimal.Pos Decimal.Nil /\
                          Z.to_int z <> Decimal.Neg Decimal.Nil).
  { intros [|p|p]; simpl; split; try discriminate;
      intros [= Hp]; now apply (Unsigned.to_uint_nonnil p). }
  apply DecimalZ.to_int_inj.
  assert (Some (Z.to_int n) = Some (Z.to_int m)) as [= ->]; [|reflexivity].
  rewrite <- (NilZero.isi (Z.to_int n)), <- (NilZero.isi (Z.to_int m));
    try apply Hnz.
  now rewrite E.
Qed.

Lemma str_int_not_star (n : Z) : str_int n <> "*".
Proof.
  intros E. pose proof (str_int_chars "*" n eq_refl) as Hc.
  rewrite E in Hc. discriminate.
Qed.

(** ** More on the access policy *)

Section AllowList.

Import Telegram.

Implicit Types (self : ChatGPT3TelegramBot) (update : Update).

Lemma contains_app (x : string) (l1 l2 : list string) :
  contains x (l1 ++ l2)%list = contains x l1 || contains x l2.
Proof. apply existsb_app. Qed.

(** A string with a comma in it is not the sentinel. *)
Lemma with_comma_not_sentinel (x y : string) :
  String.eqb (x ++ "," ++ y) "*" = false.
Proof.
  apply String.eqb_neq. intros E.
  assert (Hc : occurs "," (x ++ "," ++ y) = true).
  { rewrite occurs_app. change ("," ++ y) with (String "," y). simpl.
    apply orb_true_r. }
  rewrite E in Hc. discriminate.
Qed.

(** The verdict for [x,y] is the verdict of the fields of [x] or of the
    fields of [y]. *)
Lemma is_allowed_two_parts self update (x y : string) :
  config self !! "allowed_user_ids" = Some (x ++ "," ++ y) ->
  is_allowed self update =
    Ok (contains (sender_id update) (split "," x)
        || contains (sender_id update) (split "," y)).
Proof.
  intros E. rewrite (is_allowed_unfold _ _ _ E), with_comma_not_sentinel.
  change ("," ++ y) with (String "," y).
  now rewrite split_app_sep, contains_app.
Qed.

Lemma contains_map_str_int (m : Z) (ns : list Z) :
  contains (str_int m) (map str_int ns) = existsb (Z.eqb m) ns.
Proof.
  induction ns as [|a ns IH]; [reflexivity|].
  cbn [map]. unfold contains in *. cbn [existsb]. rewrite IH. f_equal.
  destruct (Z.eqb_spec m a) as [->|Hne].
  - apply String.eqb_refl.
  - apply String.eqb_neq. intros E. now apply Hne, str_int_inj.
Qed.

(** The written-out list splits back into the printed ids. *)
Lemma split_allow_list_of (ns : list Z) :
  ns <> [] -> split "," (allow_list_of ns) = map str_int ns.
Proof.
  intros Hne. unfold allow_list_of. apply split_join.
  - destruct ns; [congruence|discriminate].
  - apply List.Forall_forall. intros f (n & <- & _)%in_map_iff.
    now apply str_int_chars.
Qed.

Lemma allow_list_of_not_sentinel (ns : list Z) : allow_list_of ns <> "*".
Proof.
  destruct ns as [|n ns]; [discriminate|]. intros E.
  pose proof (split_allow_list_of (n :: ns) ltac:(discriminate)) as Hs.
  rewrite E in Hs. injection Hs as Hn _.
  now apply (str_int_not_star n).
Qed.

(** The order of the two halves of an allow-list does not change the
    verdict. *)
Theorem allow_list_order_irrelevant self1 self2 update (x y : string) :
  config self1 !! "allowed_user_ids" = Some (x ++ "," ++ y) ->
  config self2 !! "allowed_user_ids" = Some (y ++ "," ++ x) ->
  is_allowed self1 update = is_allowed self2 update.
Proof.
  intros E1 E2.
  rewrite (is_allowed_two_parts _ _ _ _ E1), (is_allowed_two_parts _ _ _ _ E2).
  now rewrite orb_comm.
Qed.

(** A ["*"] that is one field among others is no wildcard: a numeric
    sender is admitted only by the other fields. *)
Theorem sentinel_inside_list_is_literal self update (rest : string) (n : Z) :
  config self !! "allowed_user_ids" = Some ("*" ++ "," ++ rest) ->
  id (from_user (message update)) = Int n ->
  is_allowed self update = Ok (contains (str_int n) (split "," rest)).
Proof.
  intros E Hid. rewrite (is_allowed_two_parts _ _ _ _ E).
  unfold sender_id. rewrite Hid. cbn [str].
  change (split "," "*") with ["*"].
  pose proof (str_int_not_star n) as Hn. apply String.eqb_neq in Hn.
  unfold contains at 1. cbn [existsb]. now rewrite Hn.
Qed.

(** Appending [,u] to an explicit allow-list admits the senders whose id
    is [u] and changes no other verdict. *)
Theorem allow_list_append self self' update (ids u : string) (b : bool) :
  config self !! "allowed_user_ids" = Some ids ->
  config self' !! "allowed_user_ids" = Some (ids ++ "," ++ u) ->
  ids <> "*" ->
  occurs "," u = false ->
  is_allowed self update = Ok b ->
  is_allowed self' update = Ok (b || String.eqb (sender_id update) u).
Proof.
  intros E E' Hne Hu Hb.
  rewrite (is_allowed_unfold _ _ _ E) in Hb.
  apply String.eqb_neq in Hne. rewrite Hne in Hb. injection Hb as <-.
  rewrite (is_allowed_two_parts _ _ _ _ E'), (split_no_sep _ _ Hu).
  unfold contains at 2. cbn [existsb]. now rewrite orb_false_r.
Qed.

(** For an allow-list written out from numeric ids, a numeric sender is
    allowed exactly when the id is in the list; the empty list admits
    no one. *)
Theorem is_allowed_decimal_list self update (ns : list Z) (m : Z) :
  config self !! "allowed_user_ids" = Some (allow_list_of ns) ->
  id (from_user (message update)) = Int m ->
  is_allowed self update = Ok (existsb (Z.eqb m) ns).
Proof.
  intros E Hid. rewrite (is_allowed_unfold _ _ _ E).
  pose proof (allow_list_of_not_sentinel ns) as Hs.
  apply String.eqb_neq in Hs. rewrite Hs.
  unfold sender_id. rewrite Hid. cbn [str]. f_equal.
  destruct ns as [|n ns].
  - cbn. pose proof (str_int_nonempty m) as Hm.
    apply String.eqb_neq in Hm. now rewrite Hm.
  - rewrite split_allow_list_of by discriminate.
    apply contains_map_str_int.
Qed.

End AllowList.

(** ** Every path through the handlers *)

(** Splits a goal about [handle h self update w] into the paths the code
    can take: the policy's verdict, then the handler, then what the backend
    call does.  Each goal is left with the run written out. *)
Ltac by_paths h self update w :=
  let Ha := fresh "Ha" in
  let E := fresh "E" in
  let Hm := fresh "Hm" in
  destruct (is_allowed self update) as [[|]|?] eqn:Ha;
  [ destruct h;
    [ change (handle on_start self update w) with (start self update w);
      rewrite (start_allowed self update w Ha)
    | change (handle on_reset self update w) with (reset self update w);
      rewrite (reset_allowed self update w Ha);
      destruct (reset_chat (gpt3_bot w)) as [? [[]|?]] eqn:E
    | change (handle on_help self update w) with (help self update w);
      rewrite (help_run self update w)
    | change (handle on_prompt self update w) with (prompt self update w);
      rewrite (prompt_run self update w Ha);
      destruct (get_chat_response (Telegram.text (Telegram.message update))
                                  (gpt3_bot w))
        as [? [?response|?e]] eqn:E;
      [ match goal with
        | |- context [?r !! "message"] => destruct (r !! "message") eqn:Hm
        end
      | match goal with
        | |- context [is_Exception ?x] => destruct (is_Exception x) eqn:Hm
        end ] ]
  | destruct h;
    [ rewrite (handle_refused on_start self update w eq_refl Ha)
    | rewrite (handle_refused on_reset self update w eq_refl Ha)
    | change (handle on_help self update w) with (help self update w);
      rewrite (help_run self update w)
    | rewrite (handle_refused on_prompt self update w eq_refl Ha) ]
  | destruct h;
    [ rewrite (handle_policy_raises on_start self update w _ eq_refl Ha)
    | rewrite (handle_policy_raises on_reset self update w _ eq_refl Ha)
    | change (handle on_help self update w) with (help self update w);
      rewrite (help_run self update w)
    | rewrite (handle_policy_raises on_prompt self update w _ eq_refl Ha) ] ];
  cbn [fst snd];
  rewrite ?new_effects_same;
  rewrite ?(new_effects_app w (after w _ _) _ eq_refl).

Section AllPaths.

Context {B : Type} `{ChatGPT3Bot B}.
Import Telegram.

Implicit Types (self : ChatGPT3TelegramBot) (update : Update) (w : World B).

(** Every transport call that names a chat names the chat of the event;
    no handler writes to another chat. *)
Theorem messages_go_to_event_chat (h : handler) self update w :
  Forall (fun e => forall c : Z, effect_chat e = Some c ->
                   c = chat_id (effective_chat update))
         (new_effects w (fst (handle h self update w))).
Proof.
  by_paths h self update w;
    repeat match goal with |- Forall _ _ => constructor end;
    simpl; congruence.
Qed.

(** The backend is called at most once per event: once by [reset] and once
    by [prompt], for an allowed sender, with the message text as it came;
    never otherwise, and then the backend is left as it was. *)
Theorem backend_calls (h : handler) self update w :
  let w' := fst (handle h self update w) in
  filter is_backend_call (new_effects w w') =
    match h, is_allowed self update with
    | on_reset, Ok true => [E_reset_chat]
    | on_prompt, Ok true => [E_get_chat_response (text (message update))]
    | _, _ => []
    end /\
  (filter is_backend_call (new_effects w w') = [] ->
   gpt3_bot w' = gpt3_bot w).
Proof.
  by_paths h self update w; cbn zeta; cbn [fst snd];
    rewrite ?new_effects_same;
    rewrite ?(new_effects_app w (after w _ _) _ eq_refl);
    split; try reflexivity; try discriminate.
Qed.

(** A [send_message] call disables the link preview exactly when it is the
    notice to a refused sender. *)
Theorem preview_disabled_on_notice_only (h : handler) self update w :
  Forall (fun m => sm_disable_web_page_preview m =
                   match is_allowed self update with
                   | Ok false => Some true
                   | _ => None
                   end)
         (sent_messages (new_effects w (fst (handle h self update w)))).
Proof.
  by_paths h self update w; simpl;
    repeat match goal with |- Forall _ _ => constructor end;
    reflexivity.
Qed.

(** [start] for an allowed sender: one log line, then the greeting as a
    plain message to the event's chat; the backend is not involved. *)
Theorem start_greets self update w :
  is_allowed self update = Ok true ->
  start self update w =
    (after w (gpt3_bot w)
       [E_logging_info "Bot started";
        plain_message update "I'm a Chat-GPT3 Bot, please talk to me!"],
     Ok tt) /\
  filter is_backend_call (new_effects w (fst (start self update w))) = [].
Proof.
  intros Ha. rewrite (start_allowed _ _ _ Ha). cbn [fst].
  rewrite (new_effects_app w (after w _ _) _ eq_refl). split; reflexivity.
Qed.

(** A configuration without ["allowed_user_ids"]: [start], [reset] and
    [prompt] raise the [KeyError] before any effect, leaving the world as it
    was; [help] still answers. *)
Theorem missing_allow_list (h : handler) self update w :
  config self !! "allowed_user_ids" = None ->
  handle h self update w =
    if guarded h then (w, Raise (KeyError "allowed_user_ids"))
    else (after w (gpt3_bot w)
            [E_reply_text (message update) help_text (Some true)], Ok tt).
Proof.
  intros E.
  assert (Ha : is_allowed self update = Raise (KeyError "allowed_user_ids")).
  { unfold is_allowed, getitem. now rewrite E. }
  destruct h; cbn [guarded];
    [ apply (handle_policy_raises on_start); [reflexivity|exact Ha]
    | apply (handle_policy_raises on_reset); [reflexivity|exact Ha]
    | apply help_run
    | apply (handle_policy_raises on_prompt); [reflexivity|exact Ha] ].
Qed.

(** [get_chatgpt_response] calls the backend exactly once, touches the
    transport not at all, and never lets an [Exception] out: what it raises,
    if anything, is a [BaseException] that is not an [Exception]. *)
Theorem get_chatgpt_response_contains_errors self (msg : string) w :
  let run := get_chatgpt_response self msg w in
  (forall e : exn, snd run = Raise e -> is_Exception e = false) /\
  filter is_backend_call (new_effects w (fst run))
    = [E_get_chat_response msg] /\
  filter is_transport (new_effects w (fst run)) = [].
Proof.
  cbn zeta.
  destruct (get_chat_response msg (gpt3_bot w)) as [b' [response|e]] eqn:E.
  - rewrite (get_chatgpt_response_ok _ _ _ _ _ E). cbn [fst snd].
    rewrite (new_effects_app w (after w _ _) _ eq_refl).
    repeat split. discriminate.
  - destruct (is_Exception e) eqn:He.
    + rewrite (get_chatgpt_response_caught _ _ _ _ _ E He). cbn [fst snd].
      rewrite (new_effects_app w (after w _ _) _ eq_refl).
      repeat split. discriminate.
    + rewrite (get_chatgpt_response_uncaught _ _ _ _ _ E He). cbn [fst snd].
      rewrite (new_effects_app w (after w _ _) _ eq_refl).
      repeat split. intros e' [= <-]. exact He.
Qed.

(** Whatever [get_chatgpt_response] returns after the backend raised has a
    ["message"]: the apology. *)
Theorem get_chatgpt_response_fallback self (msg : string) w (b' : B)
    (e : exn) (d : gmap string string) :
  get_chat_response msg (gpt3_bot w) = (b', Raise e) ->
  snd (get_chatgpt_response self msg w) = Ok d ->
  d !! "message" = Some apology /\ is_Exception e = true.
Proof.
  intros E Hd. destruct (is_Exception e) eqn:He.
  - rewrite (get_chatgpt_response_caught _ _ _ _ _ E He) in Hd.
    injection Hd as <-. split; [apply lookup_singleton_eq|reflexivity].
  - rewrite (get_chatgpt_response_uncaught _ _ _ _ _ E He) in Hd.
    discriminate.
Qed.

(** A backend response without ["message"]: the [KeyError] of the subscript
    is raised outside the [try], so it leaves [prompt]; the typing indicator
    has been sent, no reply follows and nothing is logged about it. *)
Theorem prompt_missing_message_key self update w (b' : B)
    (response : gmap string string) :
  is_allowed self update = Ok true ->
  get_chat_response (text (message update)) (gpt3_bot w) = (b', Ok response) ->
  response !! "message" = None ->
  prompt self update w =
    (after w b' [received_log update;
                 typing update;
                 E_get_chat_response (text (message update))],
     Raise (KeyError "message")) /\
  is_Exception (KeyError "message") = true.
Proof.
  intros Ha E Hm. split; [|reflexivity].
  now rewrite (prompt_run _ _ _ Ha), E, Hm.
Qed.

(** What [except Exception] does not catch (a [KeyboardInterrupt] raised
    inside the backend call) leaves [prompt]: no error is logged and no
    apology is sent. *)
Theorem prompt_interrupt_propagates self update w (b' : B) (e : exn) :
  is_allowed self update = Ok true ->
  get_chat_response (text (message update)) (gpt3_bot w) = (b', Raise e) ->
  is_Exception e = false ->
  prompt self update w =
    (after w b' [received_log update;
                 typing update;
                 E_get_chat_response (text (message update))],
     Raise e).
Proof.
  intros Ha E He. now rewrite (prompt_run _ _ _ Ha), E, He.
Qed.

End AllPaths.

(** ** Further sample runs *)

(** ["456,123"] and ["123,456"] agree on sender 124. *)
Lemma allow_list_order_irrelevant_witness :
  is_allowed (init {[ "allowed_user_ids" := "456,123" ]}) mallory
  = is_allowed (init two_ids) mallory.
Proof.
  apply (allow_list_order_irrelevant
           (init {[ "allowed_user_ids" := "456,123" ]}) (init two_ids)
           mallory "456" "123"); reflexivity.
Defined.

(** The allow-list ["*,123"] refuses sender 124. *)
Lemma sentinel_inside_list_is_literal_witness :
  is_allowed (init {[ "allowed_user_ids" := "*,123" ]}) mallory = Ok false.
Proof.
  apply (sentinel_inside_list_is_literal
           (init {[ "allowed_user_ids" := "*,123" ]}) mallory "123" 124);
    reflexivity.
Defined.

(** Appending [,124] to ["123,456"] lets sender 124 in. *)
Lemma allow_list_append_witness :
  is_allowed (init two_ids) mallory = Ok false /\
  is_allowed (init {[ "allowed_user_ids" := "123,456,124" ]}) mallory
  = Ok true.
Proof.
  split; [reflexivity|].
  apply (allow_list_append (init two_ids)
           (init {[ "allowed_user_ids" := "123,456,124" ]})
           mallory "123,456" "124" false);
    reflexivity || discriminate.
Defined.

(** Sender 456 and the list written out from 123 and 456. *)
Lemma is_allowed_decimal_list_witness :
  allow_list_of [123; 456] = "123,456" /\
  is_allowed (init two_ids) bob = Ok true.
Proof.
  split; [reflexivity|].
  apply (is_allowed_decimal_list (init two_ids) bob [123; 456] 456);
    reflexivity.
Defined.

(** Sender 123 starts the bot. *)
Lemma start_greets_witness :
  is_allowed (init two_ids) alice = Ok true /\
  trace (fst (start (init two_ids) alice canned0))
  = [E_logging_info "earlier";
     E_logging_info "Bot started";
     E_send_message
       {| Telegram.sm_chat_id := 4242;
          Telegram.sm_text := "I'm a Chat-GPT3 Bot, please talk to me!";
          Telegram.sm_reply_to_message_id := None;
          Telegram.sm_parse_mode := None;
          Telegram.sm_disable_web_page_preview := None |}].
Proof.
  split; [reflexivity|].
  destruct (start_greets (init two_ids) alice canned0 eq_refl) as [Hrun _].
  exact (f_equal (fun r => trace (fst r)) Hrun).
Defined.

(** A text message to a bot configured with a token only. *)
Lemma missing_allow_list_witness :
  token_only !! "allowed_user_ids" = None /\
  handle on_prompt (init token_only) alice canned0
  = (canned0, Raise (KeyError "allowed_user_ids")).
Proof.
  split; [reflexivity|].
  apply (missing_allow_list on_prompt (init token_only) alice canned0).
  reflexivity.
Defined.

(** The backend is down and [get_chatgpt_response] returns the apology. *)
Lemma get_chatgpt_response_fallback_witness :
  snd (get_chatgpt_response (init two_ids) "Hello" down0)
  = Ok {[ "message" := apology ]} /\
  ({[ "message" := apology ]} : gmap string string) !! "message"
  = Some apology.
Proof.
  split; [reflexivity|].
  apply (get_chatgpt_response_fallback (init two_ids) "Hello" down0
           {| interrupted := false; failures := 1 |}
           (RaisedException "HTTP 503") {[ "message" := apology ]});
    reflexivity.
Defined.

(** The backend answers with an error dict and no ["message"]. *)
Lemma prompt_missing_message_key_witness :
  is_allowed (init two_ids) bob = Ok true /\
  prompt (init two_ids) bob mute0
  = ({| gpt3_bot := {| asked := ["What is Rocq?"] |};
        trace := [E_logging_info "New message received from user Bob B.";
                  E_send_chat_action (-100200) "typing";
                  E_get_chat_response "What is Rocq?"] |},
     Raise (KeyError "message")).
Proof.
  split; [reflexivity|].
  apply (prompt_missing_message_key (init two_ids) bob mute0
           {| asked := ["What is Rocq?"] |} {[ "error" := "rate limited" ]});
    reflexivity.
Defined.

(** An interrupt during the backend call. *)
Lemma prompt_interrupt_propagates_witness :
  is_allowed (init two_ids) alice = Ok true /\
  prompt (init two_ids) alice interrupted0
  = ({| gpt3_bot := {| interrupted := true; failures := 1 |};
        trace := [E_logging_info "New message received from user @alice";
                  E_send_chat_action 4242 "typing";
                  E_get_chat_response "Hello"] |},
     Raise (RaisedBaseException "KeyboardInterrupt")).
Proof.
  split; [reflexivity|].
  apply (prompt_interrupt_propagates (init two_ids) alice interrupted0
           {| interrupted := true; failures := 1 |}
           (RaisedBaseException "KeyboardInterrupt")); reflexivity.
Defined.

(** ** Threading and formatting of every reply *)

Section ReplyShapes.

Context {B : Type} `{ChatGPT3Bot B}.
Import Telegram.

Implicit Types (self : ChatGPT3TelegramBot) (update : Update) (w : World B).

(** C10 (amended): the greeting of [start], the ["Done!"] of [reset] and the
    notice to a refused sender carry no [reply_to_message_id] and no parse
    mode; the answer of [prompt] is threaded to the prompting message and in
    Markdown, and is the only reply with a parse mode; the reply of [help]
    has no parse mode and, sent through [reply_text], is threaded to the
    message exactly when the chat is not a private one. *)
Theorem reply_shapes (h : handler) self update w :
  Forall (expected_reply_shape h self update)
         (replies (new_effects w (fst (handle h self update w)))).
Proof.
  unfold expected_reply_shape, effective_chat.
  by_paths h self update w; shapes.
Qed.

End ReplyShapes.

(** [/help] in a supergroup: the usage text quotes the command message,
    though it is not the answer to a prompt. *)
Lemma help_reply_threaded_in_group :
  replies (new_effects mute0 (fst (handle on_help (init two_ids) bob mute0)))
  = [ {| Telegram.sm_chat_id := (-100200);
         Telegram.sm_text := help_text;
         Telegram.sm_reply_to_message_id := Some 9;
         Telegram.sm_parse_mode := None;
         Telegram.sm_disable_web_page_preview := Some true |} ] /\
  ~ threaded_only_by_prompt on_help
      (replies (new_effects mute0
                  (fst (handle on_help (init two_ids) bob mute0)))).
Proof.
  split; [reflexivity|].
  intros Hall. inversion Hall as [|m l Hm _]; subst.
  discriminate Hm. discriminate.
Qed.
